(** * RDS snapshot export pipeline: the CDK stack, embedded and verified

    The repository is one CDK stack, [RdsSnapshotExportPipelineStack]
    (lib/rds-snapshot-export-pipeline-stack.ts).  Its constructor registers
    constructs (bucket, roles, key, topic, event subscriptions, function,
    crawler) in the stack, one after the other.  The embedding keeps that
    shape: the constructor is a computation in a state-and-error monad whose
    state is the list of children of the stack, in creation order, and whose
    error is the exception the construct library throws when an id is used
    twice in one scope. *)

From Stdlib Require Import String Ascii List Bool Arith NArith Lia.
From Stdlib Require Import Numbers.DecimalString.
From ExtLib Require Import Structures.Monad Structures.MonadState Structures.MonadExc.
From ExtLib Require Import Data.Monads.StateMonad Data.Monads.EitherMonad.
Import ListNotations.
Import MonadNotation.

Local Open Scope monad_scope.
Local Open Scope list_scope.
Local Open Scope string_scope.

#[local] Existing Instance Monad_stateT.

Local Set Warnings "-register-all".

(** ** The JavaScript values and built-ins the constructor uses *)

Module JS.

(** The values that reach [Array.prototype.join] and [new Array].  Numbers
    are the non-negative integers, which is all an array length can be. *)
Inductive JsVal : Type :=
| JsUndefined
| JsNull
| JsNum (n : nat)
| JsStr (s : string)
| JsArr (elems : list JsVal).

(** The separator loop of [Array.prototype.join]: the elements' strings
    with [sep] between neighbours, nothing before the first or after the
    last. *)
Definition join_with (str : JsVal -> string) (sep : string)
  : list JsVal -> string :=
  fix go (l : list JsVal) : string :=
    match l with
    | [] => EmptyString
    | x :: rest =>
        match rest with
        | [] => str x
        | _ :: _ => str x ++ sep ++ go rest
        end
    end.

(** [ToString].  An array converts through [Array.prototype.toString],
    which is [join] with the default separator; inside [join] an
    [undefined] or [null] element contributes the empty string. *)
Fixpoint ToString (v : JsVal) : string :=
  match v with
  | JsUndefined => "undefined"
  | JsNull => "null"
  | JsNum n => NilEmpty.string_of_uint (Nat.to_uint n)
  | JsStr s => s
  | JsArr elems =>
      join_with (fun x => match x with
                          | JsUndefined | JsNull => EmptyString
                          | _ => ToString x
                          end) "," elems
  end.

(** What one element contributes to a [join]. *)
Definition join_elem (x : JsVal) : string :=
  match x with
  | JsUndefined | JsNull => EmptyString
  | _ => ToString x
  end.

(** [arr.join(sep)]; [sep] is [None] when the argument is left out, and
    the separator is then a comma. *)
Definition Array_join (arr : list JsVal) (sep : option string) : string :=
  join_with join_elem (match sep with Some s => s | None => "," end) arr.

(** [new Array(...args)]: a single numeric argument is a length and gives
    that many holes; anything else gives the array of the arguments. *)
Definition new_Array (args : list JsVal) : list JsVal :=
  match args with
  | [JsNum n] => repeat JsUndefined n
  | _ => args
  end.

(** [arr.map(f)] for a callback returning a string: the elements of the new
    array. *)
Definition Array_map {A : Type} (f : A -> string) (arr : list A)
  : list JsVal :=
  map (fun a => JsStr (f a)) arr.

(** [arr.find(p)]: the first element satisfying [p], or [undefined]
    ([None]). *)
Fixpoint Array_find {A : Type} (p : A -> bool) (arr : list A) : option A :=
  match arr with
  | [] => None
  | x :: rest => if p x then Some x else Array_find p rest
  end.

(** Truthiness of the result of a [find] over an array of objects: an
    object is truthy, [undefined] is not. *)
Definition truthy {A : Type} (found : option A) : bool :=
  match found with
  | Some _ => true
  | None => false
  end.

(** [s.replace(/[^...]/g, by)] for a negated one-character class: the
    regular expression has no [u] flag, so it works code unit by code
    unit; every code unit outside the class [keep] becomes [by], the others
    stay.  Generic in the code unit type. *)
Definition replace_outside {C : Type} (keep : C -> bool) (by_ : C)
  (s : list C) : list C :=
  map (fun c => if keep c then c else by_) s.

(** The class [a-zA-Z0-9_] on a code unit given by its number. *)
Definition word_code (n : N) : bool :=
  ((97 <=? n) && (n <=? 122) || (65 <=? n) && (n <=? 90)
   || (48 <=? n) && (n <=? 57) || (n =? 95))%N.

(** Strings of the embedding are Rocq strings, one character per code
    unit. *)
Definition word_char (c : ascii) : bool := word_code (N_of_ascii c).

Definition String_replace_outside (keep : ascii -> bool) (by_ : ascii)
  (s : string) : string :=
  string_of_list_ascii (replace_outside keep by_ (list_ascii_of_string s)).

End JS.

(** ** The part of the CDK the stack is written against

    Tokens, policy documents, the properties of the seven kinds of construct
    the stack creates, and the registration of a construct in its scope.  The
    library's checks of physical names (bucket name, key alias, function
    name) are left out: they read the two names of the deployment, never the
    rule set. *)

Module CDK.

(** A string that may hold references resolved at deployment: CDK encodes
    them as tokens inside ordinary strings, so a template literal around a
    token is a concatenation. *)
Inductive Token : Type :=
| Lit (s : string)
| Attr (constructId : string) (attribute : string)
| AccountRootArn
| Concat (a b : Token).

(** A JSON member that is written either as one value or as an array. *)
Inductive OneOrMany (A : Type) : Type :=
| One (a : A)
| Many (l : list A).
Arguments One {A} a.
Arguments Many {A} l.

Definition items {A : Type} (x : OneOrMany A) : list A :=
  match x with
  | One a => [a]
  | Many l => l
  end.

(** ["Condition": { operator: { key: value } }] *)
Record ConditionClause : Type := {
  operator : string;
  conditionKey : string;
  conditionValue : bool
}.

(** One statement of a policy document given to [PolicyDocument.fromJson];
    [Principal] holds the value of its ["AWS"] member. *)
Record PolicyStatement : Type := {
  Principal : option (OneOrMany Token);
  Action : OneOrMany string;
  Resource : OneOrMany Token;
  Condition : option ConditionClause;
  Effect : string
}.

Record PolicyDocument : Type := {
  Version : string;
  Statement : list PolicyStatement
}.

Record BucketProps : Type := {
  bucketName : string;
  blockPublicAccess : string
}.

Record RoleProps : Type := {
  assumedBy : string;
  description : string;
  inlinePolicies : list (string * PolicyDocument);
  managedPolicies : list string
}.

Record KeyProps : Type := {
  alias : string;
  policy : PolicyDocument
}.

Record TopicProps : Type := {
  displayName : string
}.

Record CfnEventSubscriptionProps : Type := {
  snsTopicArn : Token;
  enabled : bool;
  eventCategories : list string;
  sourceType : string
}.

Record FunctionProps : Type := {
  functionName : string;
  runtime : string;
  handler : string;
  code : string;
  environment : list (string * Token);
  role : string;
  timeout : nat;
  events : list string
}.

Record CfnCrawlerProps : Type := {
  name : string;
  crawlerRole : Token;
  s3Targets : list Token;
  databaseName : string;
  deleteBehavior : string
}.

Inductive Construct : Type :=
| Bucket (p : BucketProps)
| Role (p : RoleProps)
| Key (p : KeyProps)
| Topic (p : TopicProps)
| CfnEventSubscription (p : CfnEventSubscriptionProps)
| LambdaFunction (p : FunctionProps)
| CfnCrawler (p : CfnCrawlerProps).

(** The children of the stack, in creation order, each under its id. *)
Definition ConstructTree : Type := list (string * Construct).

(** Construction: the tree is threaded through, and a duplicate id throws. *)
Definition Build : Type -> Type := stateT ConstructTree (sum string).

Definition hasChild (id : string) (tree : ConstructTree) : bool :=
  existsb (fun child => String.eqb (fst child) id) tree.

(** [new C(this, id, props)]: registers the construct under [id] in the
    stack and returns its handle (the id); the construct library throws when
    the scope already has a child of that id. *)
Definition addChild (id : string) (r : Construct) : Build string :=
  tree <- get ;;
  if hasChild id tree
  then raise ("There is already a Construct with name '" ++ id ++ "'")
  else put (tree ++ [(id, r)])%list ;; ret id.

(** The attributes read off a handle. *)
Definition bucketArn (h : string) : Token := Attr h "Arn".
Definition bucketNameOf (h : string) : Token := Attr h "Ref".
Definition roleArn (h : string) : Token := Attr h "Arn".
Definition keyArn (h : string) : Token := Attr h "Arn".
Definition topicArn (h : string) : Token := Attr h "Ref".

Fixpoint lookup {V : Type} (k : string) (l : list (string * V)) : option V :=
  match l with
  | [] => None
  | (k', v) :: rest => if String.eqb k' k then Some v else lookup k rest
  end.

End CDK.

(** ** lib/rds-snapshot-export-pipeline-stack.ts *)

Module Stack.
Import JS CDK.

(** [enum RdsEventId]: the event ids the function supports. *)
Inductive RdsEventId : Type :=
| DB_AUTOMATED_AURORA_SNAPSHOT_CREATED
| DB_AUTOMATED_SNAPSHOT_CREATED
| DB_MANUAL_SNAPSHOT_CREATED
| DB_BACKUP_SNAPSHOT_FINISHED_COPY.

(** The string each member of the enum is at run time. *)
Definition RdsEventId_value (e : RdsEventId) : string :=
  match e with
  | DB_AUTOMATED_AURORA_SNAPSHOT_CREATED => "RDS-EVENT-0169"
  | DB_AUTOMATED_SNAPSHOT_CREATED => "RDS-EVENT-0091"
  | DB_MANUAL_SNAPSHOT_CREATED => "RDS-EVENT-0042"
  | DB_BACKUP_SNAPSHOT_FINISHED_COPY => "RDS-EVENT-0197"
  end.

(** [enum RdsSnapshotType] *)
Inductive RdsSnapshotType : Type :=
| DB_AUTOMATED_SNAPSHOT
| DB_BACKUP_SNAPSHOT
| DB_MANUAL_SNAPSHOT.

Definition RdsSnapshotType_value (t : RdsSnapshotType) : string :=
  match t with
  | DB_AUTOMATED_SNAPSHOT => "AUTOMATED"
  | DB_BACKUP_SNAPSHOT => "BACKUP"
  | DB_MANUAL_SNAPSHOT => "MANUAL"
  end.

(** [interface RdsSnapshot] *)
Record RdsSnapshot : Type := {
  rdsEventId : RdsEventId;
  rdsSnapshotType : RdsSnapshotType
}.

(** [interface RdsSnapshotExportPipelineStackProps] *)
Record RdsSnapshotExportPipelineStackProps : Type := {
  s3BucketName : string;
  dbName : string;
  rdsEvents : list RdsSnapshot
}.

(** [a == b] on two members of the string enum compares their strings. *)
Definition eventId_eq (a b : RdsEventId) : bool :=
  String.eqb (RdsEventId_value a) (RdsEventId_value b).

(** The callbacks of the three [map]s of the function's environment. *)
Definition eventIdOf (e : RdsSnapshot) : string :=
  RdsEventId_value (rdsEventId e).

Definition snapshotTypeOf (e : RdsSnapshot) : string :=
  RdsSnapshotType_value (rdsSnapshotType e).

Definition exportModeOf (e : RdsSnapshot) : string :=
  if eventId_eq (rdsEventId e) DB_AUTOMATED_AURORA_SNAPSHOT_CREATED
  then "cluster-snapshot" else "snapshot".

(** [new Array(props.rdsEvents.map(f)).join()] *)
Definition serialize (f : RdsSnapshot -> string) (events : list RdsSnapshot)
  : string :=
  Array_join (new_Array [JsArr (Array_map f events)]) None.

Definition dquote : string := String "034"%char EmptyString.

(** The constructor of the stack.  [super(scope, id, props)] starts from a
    stack without children; the body follows the source statement by
    statement. *)
Definition RdsSnapshotExportPipelineStack
  (props : RdsSnapshotExportPipelineStackProps) : Build unit :=
  bucket <- addChild "SnapshotExportBucket" (Bucket {|
    bucketName := s3BucketName props;
    blockPublicAccess := "BLOCK_ALL" |}) ;;

  snapshotExportTaskRole <- addChild "SnapshotExportTaskRole" (Role {|
    assumedBy := "export.rds.amazonaws.com";
    description := "Role used by RDS to perform snapshot exports to S3";
    inlinePolicies := [
      ("SnapshotExportTaskPolicy", {|
        Version := "2012-10-17";
        Statement := [
          {| Principal := None;
             Action := Many [
               "s3:PutObject*";
               "s3:ListBucket";
               "s3:GetObject*";
               "s3:DeleteObject*";
               "s3:GetBucketLocation" ];
             Resource := Many [
               bucketArn bucket;
               Concat (bucketArn bucket) (Lit "/*") ];
             Condition := None;
             Effect := "Allow" |} ] |}) ];
    managedPolicies := [] |}) ;;

  lambdaExecutionRole <- addChild "RdsSnapshotExporterLambdaExecutionRole" (Role {|
    assumedBy := "lambda.amazonaws.com";
    description := "RdsSnapshotExportToS3 Lambda execution role for the "
                   ++ dquote ++ dbName props ++ dquote ++ " database.";
    inlinePolicies := [
      ("SnapshotExporterLambdaPolicy", {|
        Version := "2012-10-17";
        Statement := [
          {| Principal := None;
             Action := Many [
               "rds:StartExportTask";
               "rds:DescribeDBSnapshots" ];
             Resource := One (Lit "*");
             Condition := None;
             Effect := "Allow" |};
          {| Principal := None;
             Action := One "iam:PassRole";
             Resource := Many [roleArn snapshotExportTaskRole];
             Condition := None;
             Effect := "Allow" |} ] |}) ];
    managedPolicies := ["service-role/AWSLambdaBasicExecutionRole"] |}) ;;

  snapshotExportGlueCrawlerRole <- addChild "SnapshotExportsGlueCrawlerRole" (Role {|
    assumedBy := "glue.amazonaws.com";
    description := "Role used by RDS to perform snapshot exports to S3";
    inlinePolicies := [
      ("SnapshotExportsGlueCrawlerPolicy", {|
        Version := "2012-10-17";
        Statement := [
          {| Principal := None;
             Action := Many [
               "s3:GetObject";
               "s3:PutObject" ];
             Resource := One (Concat (bucketArn bucket) (Lit "/*"));
             Condition := None;
             Effect := "Allow" |} ] |}) ];
    managedPolicies := ["service-role/AWSGlueServiceRole"] |}) ;;

  snapshotExportEncryptionKey <- addChild "SnapshotExportEncryptionKey" (Key {|
    alias := dbName props ++ "-snapshot-exports";
    policy := {|
      Version := "2012-10-17";
      Statement := [
        {| Principal := Some (Many [AccountRootArn]);
           Action := Many ["kms:*"];
           Resource := One (Lit "*");
           Condition := None;
           Effect := "Allow" |};
        {| Principal := Some (Many [
             roleArn lambdaExecutionRole;
             roleArn snapshotExportGlueCrawlerRole ]);
           Action := Many [
             "kms:Encrypt";
             "kms:Decrypt";
             "kms:ReEncrypt*";
             "kms:GenerateDataKey*";
             "kms:DescribeKey" ];
           Resource := One (Lit "*");
           Condition := None;
           Effect := "Allow" |};
        {| Principal := Some (One (roleArn lambdaExecutionRole));
           Action := Many [
             "kms:CreateGrant";
             "kms:ListGrants";
             "kms:RevokeGrant" ];
           Resource := One (Lit "*");
           Condition := Some {|
             operator := "Bool";
             conditionKey := "kms:GrantIsForAWSResource";
             conditionValue := true |};
           Effect := "Allow" |} ] |} |}) ;;

  snapshotEventTopic <- addChild "SnapshotEventTopic" (Topic {|
    displayName := "rds-snapshot-creation" |}) ;;

  (* Creates the appropriate RDS Event Subscription for RDS or Aurora
     clusters, to catch snapshot creation events *)
  (if truthy (Array_find (fun rdsEvent =>
        eventId_eq (rdsEventId rdsEvent) DB_AUTOMATED_AURORA_SNAPSHOT_CREATED)
        (rdsEvents props))
   then addChild "RdsSnapshotEventNotification" (CfnEventSubscription {|
          snsTopicArn := topicArn snapshotEventTopic;
          enabled := true;
          eventCategories := ["backup"];
          sourceType := "db-cluster-snapshot" |})
   else addChild "RdsSnapshotEventNotification" (CfnEventSubscription {|
          snsTopicArn := topicArn snapshotEventTopic;
          enabled := true;
          eventCategories := ["creation"];
          sourceType := "db-snapshot" |})) ;;

  (* With AWS Backup Service, if a prior recent snapshot exists the service
     copies the existing snapshot, and triggers another notification *)
  (if truthy (Array_find (fun rdsEvent =>
        eventId_eq (rdsEventId rdsEvent) DB_BACKUP_SNAPSHOT_FINISHED_COPY)
        (rdsEvents props))
   then addChild "RdsBackupCopyEventNotification" (CfnEventSubscription {|
          snsTopicArn := topicArn snapshotEventTopic;
          enabled := true;
          eventCategories := ["notification"];
          sourceType := "db-snapshot" |}) ;; ret tt
   else ret tt) ;;

  addChild "LambdaFunction" (LambdaFunction {|
    functionName := dbName props ++ "-rds-snapshot-exporter";
    runtime := "python3.8";
    handler := "main.handler";
    code := "__dirname/../assets/exporter/";
    environment := [
      ("RDS_EVENT_IDS", Lit (serialize eventIdOf (rdsEvents props)));
      ("RDS_SNAPSHOT_TYPES", Lit (serialize snapshotTypeOf (rdsEvents props)));
      ("DB_NAME", Lit (dbName props));
      ("LOG_LEVEL", Lit "INFO");
      ("SNAPSHOT_BUCKET_NAME", bucketNameOf bucket);
      ("SNAPSHOT_TASK_ROLE", roleArn snapshotExportTaskRole);
      ("SNAPSHOT_TASK_KEY", keyArn snapshotExportEncryptionKey);
      ("DB_SNAPSHOT_TYPES", Lit (serialize exportModeOf (rdsEvents props))) ];
    role := lambdaExecutionRole;
    timeout := 30;
    events := [snapshotEventTopic] |}) ;;

  addChild "SnapshotExportCrawler" (CfnCrawler {|
    name := dbName props ++ "-rds-snapshot-crawler";
    crawlerRole := roleArn snapshotExportGlueCrawlerRole;
    s3Targets := [bucketNameOf bucket];
    databaseName := String_replace_outside word_char "_"%char (dbName props);
    deleteBehavior := "DELETE_FROM_DATABASE" |}) ;;
  ret tt.

(** Synthesis: run the constructor on a stack without children. *)
Definition synth (props : RdsSnapshotExportPipelineStackProps)
  : string + unit * ConstructTree :=
  runStateT (RdsSnapshotExportPipelineStack props) [].

(** bin/cdk.ts: the deployment the repository ships. *)
Definition app_props : RdsSnapshotExportPipelineStackProps := {|
  dbName := "db-mysql-main";
  rdsEvents := [
    {| rdsEventId := DB_AUTOMATED_SNAPSHOT_CREATED;
       rdsSnapshotType := DB_AUTOMATED_SNAPSHOT |};
    {| rdsEventId := DB_MANUAL_SNAPSHOT_CREATED;
       rdsSnapshotType := DB_MANUAL_SNAPSHOT |};
    {| rdsEventId := DB_BACKUP_SNAPSHOT_FINISHED_COPY;
       rdsSnapshotType := DB_BACKUP_SNAPSHOT |} ];
  s3BucketName := "db-mysql-main-2023-06-07" |}.

End Stack.

(** ** Reading the synthesized stack *)

Module Synth.
Import JS CDK Stack.

(** The SubscriptionSpecs of a stack: its event subscriptions, each with the
    logical id it was created under, in creation order. *)
Definition subscriptions (tree : ConstructTree)
  : list (string * CfnEventSubscriptionProps) :=
  flat_map (fun child => match snd child with
                         | CfnEventSubscription p => [(fst child, p)]
                         | _ => []
                         end) tree.

Definition roleOf (id : string) (tree : ConstructTree) : option RoleProps :=
  match lookup id tree with
  | Some (Role p) => Some p
  | _ => None
  end.

Definition keyOf (id : string) (tree : ConstructTree) : option KeyProps :=
  match lookup id tree with
  | Some (Key p) => Some p
  | _ => None
  end.

Definition functionOf (id : string) (tree : ConstructTree)
  : option FunctionProps :=
  match lookup id tree with
  | Some (LambdaFunction p) => Some p
  | _ => None
  end.

Definition crawlerOf (id : string) (tree : ConstructTree)
  : option CfnCrawlerProps :=
  match lookup id tree with
  | Some (CfnCrawler p) => Some p
  | _ => None
  end.

(** The keys of a stack, for statements about every key policy. *)
Definition keys (tree : ConstructTree) : list KeyProps :=
  flat_map (fun child => match snd child with
                         | Key p => [p]
                         | _ => []
                         end) tree.

(** All statements of the inline policies of a role. *)
Definition roleStatements (r : RoleProps) : list PolicyStatement :=
  flat_map (fun named => Statement (snd named)) (inlinePolicies r).

(** A rule set contains a condition with the given event id. *)
Definition contains (id : RdsEventId) (events : list RdsSnapshot) : Prop :=
  exists e, In e events /\ rdsEventId e = id.

(** The test the constructor makes for it. *)
Definition hasEvent (id : RdsEventId) (events : list RdsSnapshot) : bool :=
  truthy (Array_find (fun rdsEvent => eventId_eq (rdsEventId rdsEvent) id)
            events).

(** The three SubscriptionSpecs the source spells out, all on the one
    topic. *)
Definition clusterBackupSpec : CfnEventSubscriptionProps := {|
  snsTopicArn := topicArn "SnapshotEventTopic";
  enabled := true;
  eventCategories := ["backup"];
  sourceType := "db-cluster-snapshot" |}.

Definition snapshotCreationSpec : CfnEventSubscriptionProps := {|
  snsTopicArn := topicArn "SnapshotEventTopic";
  enabled := true;
  eventCategories := ["creation"];
  sourceType := "db-snapshot" |}.

Definition copyNotificationSpec : CfnEventSubscriptionProps := {|
  snsTopicArn := topicArn "SnapshotEventTopic";
  enabled := true;
  eventCategories := ["notification"];
  sourceType := "db-snapshot" |}.

(** A statement that lets the account's root principal do everything with
    the key, with no condition attached. *)
Definition unconditionalRootGrant (s : PolicyStatement) : Prop :=
  Effect s = "Allow"
  /\ Principal s = Some (Many [AccountRootArn])
  /\ items (Action s) = ["kms:*"]
  /\ items (Resource s) = [Lit "*"]
  /\ Condition s = None.

(** A statement that names the delegation action. *)
Definition delegates (s : PolicyStatement) : Prop :=
  In "iam:PassRole" (items (Action s)).

(** The straightforward serialization, [list.map(f).join(",")]. *)
Definition serialize_plain (f : RdsSnapshot -> string)
  (events : list RdsSnapshot) : string :=
  Array_join (Array_map f events) (Some ",").

(** [s.split(sep)] for a one-character separator: the pieces between the
    separators, so the empty string has one (empty) piece. *)
Fixpoint split_on (sep : ascii) (s : string) : list string :=
  match s with
  | EmptyString => [EmptyString]
  | String c rest =>
      if Ascii.eqb c sep then EmptyString :: split_on sep rest
      else match split_on sep rest with
           | [] => [String c EmptyString]
           | piece :: pieces => String c piece :: pieces
           end
  end.

(** Reading a comma-joined list of non-empty fields back: the empty string
    is the empty list, anything else is its comma-separated pieces. *)
Definition fields (s : string) : list string :=
  match s with
  | EmptyString => []
  | _ => split_on ","%char s
  end.

(** A character does not occur in a string. *)
Fixpoint free_of (c : ascii) (s : string) : bool :=
  match s with
  | EmptyString => true
  | String c' rest => negb (Ascii.eqb c' c) && free_of c rest
  end.

(** The catalog database name of a database name. *)
Definition normalize (s : string) : string :=
  String_replace_outside word_char "_"%char s.

(** The same replacement on UTF-16 code units. *)
Definition normalize_utf16 (s : list N) : list N :=
  replace_outside word_code 95%N s.

(** Deployments used as concrete inputs below. *)
Definition inert_props : RdsSnapshotExportPipelineStackProps := {|
  dbName := "db-mysql-main";
  rdsEvents := [];
  s3BucketName := "db-mysql-main-2023-06-07" |}.

Definition aurora_props : RdsSnapshotExportPipelineStackProps := {|
  dbName := "db-mysql-main";
  rdsEvents := [
    {| rdsEventId := DB_AUTOMATED_AURORA_SNAPSHOT_CREATED;
       rdsSnapshotType := DB_AUTOMATED_SNAPSHOT |} ];
  s3BucketName := "db-mysql-main-2023-06-07" |}.

(** The source types of the emitted SubscriptionSpecs. *)
Definition sourceTypes (subs : list (string * CfnEventSubscriptionProps))
  : list string :=
  map (fun s => sourceType (snd s)) subs.

Definition withSourceType (st : string)
  (subs : list (string * CfnEventSubscriptionProps))
  : list (string * CfnEventSubscriptionProps) :=
  filter (fun s => String.eqb (sourceType (snd s)) st) subs.

End Synth.

(** ** Reading the dependency structure of a stack *)

Module Graph.
Import JS CDK Stack Synth.

(** The constructs of each remaining kind, with their ids. *)
Definition buckets (tree : ConstructTree) : list (string * BucketProps) :=
  flat_map (fun child => match snd child with
                         | Bucket p => [(fst child, p)]
                         | _ => []
                         end) tree.

Definition roles (tree : ConstructTree) : list (string * RoleProps) :=
  flat_map (fun child => match snd child with
                         | Role p => [(fst child, p)]
                         | _ => []
                         end) tree.

Definition topics (tree : ConstructTree) : list (string * TopicProps) :=
  flat_map (fun child => match snd child with
                         | Topic p => [(fst child, p)]
                         | _ => []
                         end) tree.

Definition crawlers (tree : ConstructTree) : list (string * CfnCrawlerProps) :=
  flat_map (fun child => match snd child with
                         | CfnCrawler p => [(fst child, p)]
                         | _ => []
                         end) tree.

(** The children of a stack other than its event subscriptions and its
    function. *)
Definition staticPart (tree : ConstructTree) : ConstructTree :=
  filter (fun child => match snd child with
                       | CfnEventSubscription _ | LambdaFunction _ => false
                       | _ => true
                       end) tree.

(** The same deployment with another rule set. *)
Definition withRuleSet (props : RdsSnapshotExportPipelineStackProps)
  (events : list RdsSnapshot) : RdsSnapshotExportPipelineStackProps := {|
  s3BucketName := s3BucketName props;
  dbName := dbName props;
  rdsEvents := events |}.

(** The same deployment for another database. *)
Definition withDbName (props : RdsSnapshotExportPipelineStackProps)
  (db : string) : RdsSnapshotExportPipelineStackProps := {|
  s3BucketName := s3BucketName props;
  dbName := db;
  rdsEvents := rdsEvents props |}.

(** The construct ids a token mentions. *)
Fixpoint tokenRefs (t : Token) : list string :=
  match t with
  | Lit _ => []
  | Attr id _ => [id]
  | AccountRootArn => []
  | Concat a b => tokenRefs a ++ tokenRefs b
  end.

(** The principals of a statement. *)
Definition principals (s : PolicyStatement) : list Token :=
  match Principal s with
  | Some p => items p
  | None => []
  end.

Definition statementRefs (s : PolicyStatement) : list string :=
  flat_map tokenRefs (principals s) ++ flat_map tokenRefs (items (Resource s)).

Definition documentRefs (d : PolicyDocument) : list string :=
  flat_map statementRefs (Statement d).

(** The construct ids a construct is built from: the tokens in its
    properties and the handles passed to it. *)
Definition constructRefs (c : Construct) : list string :=
  match c with
  | Bucket _ => []
  | Role p => flat_map (fun named => documentRefs (snd named)) (inlinePolicies p)
  | Key p => documentRefs (policy p)
  | Topic _ => []
  | CfnEventSubscription p => tokenRefs (snsTopicArn p)
  | LambdaFunction p =>
      flat_map (fun entry => tokenRefs (snd entry)) (environment p)
      ++ role p :: events p
  | CfnCrawler p => tokenRefs (crawlerRole p) ++ flat_map tokenRefs (s3Targets p)
  end.

(** Every construct of the tree refers to constructs created before it
    only ([seen] are the ids created so far). *)
Fixpoint createdBeforeUse (seen : list string) (tree : ConstructTree) : bool :=
  match tree with
  | [] => true
  | (id, c) :: rest =>
      forallb (fun r => existsb (String.eqb r) seen) (constructRefs c)
      && createdBeforeUse (id :: seen) rest
  end.

(** The actions on S3, and the actions that manage grants on a key. *)
Definition s3Action (a : string) : bool := String.prefix "s3:" a.

Definition grantManagement (a : string) : bool :=
  existsb (String.eqb a) ["kms:CreateGrant"; "kms:ListGrants"; "kms:RevokeGrant"].

(** The condition the source puts on grant management. *)
Definition grantIsForAWSResource : ConditionClause := {|
  operator := "Bool";
  conditionKey := "kms:GrantIsForAWSResource";
  conditionValue := true |}.

(** The logical ids of the stack, but for the optional copy subscription. *)
Definition idsBeforeCopy : list string := [
  "SnapshotExportBucket";
  "SnapshotExportTaskRole";
  "RdsSnapshotExporterLambdaExecutionRole";
  "SnapshotExportsGlueCrawlerRole";
  "SnapshotExportEncryptionKey";
  "SnapshotEventTopic";
  "RdsSnapshotEventNotification" ].

Definition idsAfterCopy : list string := [
  "LambdaFunction";
  "SnapshotExportCrawler" ].

(** The export mode as the function can compute it from a field of
    [RDS_EVENT_IDS]. *)
Definition exportModeOfId (id : string) : string :=
  if String.eqb id "RDS-EVENT-0169" then "cluster-snapshot" else "snapshot".

End Graph.

(** ** The earlier stack, for one event id

    The file of the same name written against CDK 1, which bin/cdk.ts
    instantiates: the deployment names one event id instead of a rule set. *)

Module StackV1.
Import JS CDK.

(** [enum RdsEventId] of the earlier file. *)
Inductive RdsEventId : Type :=
| DB_AUTOMATED_AURORA_SNAPSHOT_CREATED
| DB_AUTOMATED_SNAPSHOT_CREATED.

Definition RdsEventId_value (e : RdsEventId) : string :=
  match e with
  | DB_AUTOMATED_AURORA_SNAPSHOT_CREATED => "RDS-EVENT-0169"
  | DB_AUTOMATED_SNAPSHOT_CREATED => "RDS-EVENT-0091"
  end.

Record RdsSnapshotExportPipelineStackProps : Type := {
  s3BucketName : string;
  dbName : string;
  rdsEventId : RdsEventId
}.

(** The [Principal] member of a statement of the key policy: an object with
    an ["AWS"] member, or a bare string. *)
Inductive PrincipalJson : Type :=
| PrincipalAWS (p : OneOrMany Token)
| PrincipalString (t : Token).

Record KeyStatement : Type := {
  keyPrincipal : PrincipalJson;
  keyAction : OneOrMany string;
  keyResource : OneOrMany Token;
  keyCondition : option ConditionClause;
  keyEffect : string
}.

Record KeyDocument : Type := {
  keyVersion : string;
  keyStatements : list KeyStatement
}.

Record KeyPropsV1 : Type := {
  keyAlias : string;
  keyPolicy : KeyDocument
}.

Inductive ConstructV1 : Type :=
| BucketV1 (p : BucketProps)
| RoleV1 (p : RoleProps)
| KeyV1 (p : KeyPropsV1)
| TopicV1 (p : TopicProps)
| CfnEventSubscriptionV1 (p : CfnEventSubscriptionProps)
| LambdaFunctionV1 (p : FunctionProps)
| CfnCrawlerV1 (p : CfnCrawlerProps).

Definition TreeV1 : Type := list (string * ConstructV1).

Definition BuildV1 : Type -> Type := stateT TreeV1 (sum string).

(** [new C(this, id, props)], as in the later stack. *)
Definition addChildV1 (id : string) (c : ConstructV1) : BuildV1 string :=
  tree <- get ;;
  if existsb (fun child => String.eqb (fst child) id) tree
  then raise ("There is already a Construct with name '" ++ id ++ "'")
  else put (tree ++ [(id, c)])%list ;; ret id.

(** The constructor of the earlier stack, statement by statement. *)
Definition RdsSnapshotExportPipelineStack
  (props : RdsSnapshotExportPipelineStackProps) : BuildV1 unit :=
  bucket <- addChildV1 "SnapshotExportBucket" (BucketV1 {|
    bucketName := s3BucketName props;
    blockPublicAccess := "BLOCK_ALL" |}) ;;

  snapshotExportTaskRole <- addChildV1 "SnapshotExportTaskRole" (RoleV1 {|
    assumedBy := "export.rds.amazonaws.com";
    description := "Role used by RDS to perform snapshot exports to S3";
    inlinePolicies := [
      ("SnapshotExportTaskPolicy", {|
        Version := "2012-10-17";
        Statement := [
          {| Principal := None;
             Action := Many [
               "s3:PutObject*";
               "s3:ListBucket";
               "s3:GetObject*";
               "s3:DeleteObject*";
               "s3:GetBucketLocation" ];
             Resource := Many [
               bucketArn bucket;
               Concat (bucketArn bucket) (Lit "/*") ];
             Condition := None;
             Effect := "Allow" |} ] |}) ];
    managedPolicies := [] |}) ;;

  lambdaExecutionRole <- addChildV1 "RdsSnapshotExporterLambdaExecutionRole" (RoleV1 {|
    assumedBy := "lambda.amazonaws.com";
    description := "RdsSnapshotExportToS3 Lambda execution role for the "
                   ++ Stack.dquote ++ dbName props ++ Stack.dquote
                   ++ " database.";
    inlinePolicies := [
      ("SnapshotExporterLambdaPolicy", {|
        Version := "2012-10-17";
        Statement := [
          {| Principal := None;
             Action := One "rds:StartExportTask";
             Resource := One (Lit "*");
             Condition := None;
             Effect := "Allow" |};
          {| Principal := None;
             Action := One "iam:PassRole";
             Resource := Many [roleArn snapshotExportTaskRole];
             Condition := None;
             Effect := "Allow" |} ] |}) ];
    managedPolicies := ["service-role/AWSLambdaBasicExecutionRole"] |}) ;;

  snapshotExportGlueCrawlerRole <- addChildV1 "SnapshotExportsGlueCrawlerRole" (RoleV1 {|
    assumedBy := "glue.amazonaws.com";
    description := "Role used by RDS to perform snapshot exports to S3";
    inlinePolicies := [
      ("SnapshotExportsGlueCrawlerPolicy", {|
        Version := "2012-10-17";
        Statement := [
          {| Principal := None;
             Action := Many [
               "s3:GetObject";
               "s3:PutObject" ];
             Resource := One (Concat (bucketArn bucket) (Lit "/*"));
             Condition := None;
             Effect := "Allow" |} ] |}) ];
    managedPolicies := ["service-role/AWSGlueServiceRole"] |}) ;;

  snapshotExportEncryptionKey <- addChildV1 "SnapshotExportEncryptionKey" (KeyV1 {|
    keyAlias := dbName props ++ "-snapshot-exports";
    keyPolicy := {|
      keyVersion := "2012-10-17";
      keyStatements := [
        {| keyPrincipal := PrincipalAWS (Many [
             AccountRootArn;
             roleArn lambdaExecutionRole;
             roleArn snapshotExportGlueCrawlerRole ]);
           keyAction := Many [
             "kms:Encrypt";
             "kms:Decrypt";
             "kms:ReEncrypt*";
             "kms:GenerateDataKey*";
             "kms:DescribeKey" ];
           keyResource := One (Lit "*");
           keyCondition := None;
           keyEffect := "Allow" |};
        {| keyPrincipal := PrincipalString (roleArn lambdaExecutionRole);
           keyAction := Many [
             "kms:CreateGrant";
             "kms:ListGrants";
             "kms:RevokeGrant" ];
           keyResource := One (Lit "*");
           keyCondition := Some {|
             operator := "Bool";
             conditionKey := "kms:GrantIsForAWSResource";
             conditionValue := true |};
           keyEffect := "Allow" |} ] |} |}) ;;

  snapshotEventTopic <- addChildV1 "SnapshotEventTopic" (TopicV1 {|
    displayName := "rds-snapshot-creation" |}) ;;

  addChildV1 "RdsSnapshotEventNotification" (CfnEventSubscriptionV1 {|
    snsTopicArn := topicArn snapshotEventTopic;
    enabled := true;
    eventCategories := ["creation"];
    sourceType := "db-snapshot" |}) ;;

  addChildV1 "LambdaFunction" (LambdaFunctionV1 {|
    functionName := dbName props ++ "-rds-snapshot-exporter";
    runtime := "python3.8";
    handler := "main.handler";
    code := "__dirname/../assets/exporter/";
    environment := [
      ("RDS_EVENT_ID", Lit (RdsEventId_value (rdsEventId props)));
      ("DB_NAME", Lit (dbName props));
      ("LOG_LEVEL", Lit "INFO");
      ("SNAPSHOT_BUCKET_NAME", bucketNameOf bucket);
      ("SNAPSHOT_TASK_ROLE", roleArn snapshotExportTaskRole);
      ("SNAPSHOT_TASK_KEY", keyArn snapshotExportEncryptionKey) ];
    role := lambdaExecutionRole;
    timeout := 30;
    events := [snapshotEventTopic] |}) ;;

  addChildV1 "SnapshotExportCrawler" (CfnCrawlerV1 {|
    name := dbName props ++ "-rds-snapshot-crawler";
    crawlerRole := roleArn snapshotExportGlueCrawlerRole;
    s3Targets := [bucketNameOf bucket];
    databaseName := String_replace_outside word_char "_"%char (dbName props);
    deleteBehavior := "DELETE_FROM_DATABASE" |}) ;;
  ret tt.

Definition synth (props : RdsSnapshotExportPipelineStackProps)
  : string + unit * TreeV1 :=
  runStateT (RdsSnapshotExportPipelineStack props) [].

(** bin/cdk.ts *)
Definition app_props : RdsSnapshotExportPipelineStackProps := {|
  dbName := "<existing-rds-database-name>";
  rdsEventId := DB_AUTOMATED_SNAPSHOT_CREATED;
  s3BucketName := "<desired-s3-bucket-name>" |}.

(** Reading a tree of the earlier stack, kind by kind. *)
Definition buckets (tree : TreeV1) : list (string * BucketProps) :=
  flat_map (fun child => match snd child with
                         | BucketV1 p => [(fst child, p)]
                         | _ => []
                         end) tree.

Definition roles (tree : TreeV1) : list (string * RoleProps) :=
  flat_map (fun child => match snd child with
                         | RoleV1 p => [(fst child, p)]
                         | _ => []
                         end) tree.

Definition keys (tree : TreeV1) : list (string * KeyPropsV1) :=
  flat_map (fun child => match snd child with
                         | KeyV1 p => [(fst child, p)]
                         | _ => []
                         end) tree.

Definition topics (tree : TreeV1) : list (string * TopicProps) :=
  flat_map (fun child => match snd child with
                         | TopicV1 p => [(fst child, p)]
                         | _ => []
                         end) tree.

Definition subscriptions (tree : TreeV1)
  : list (string * CfnEventSubscriptionProps) :=
  flat_map (fun child => match snd child with
                         | CfnEventSubscriptionV1 p => [(fst child, p)]
                         | _ => []
                         end) tree.


Definition crawlers (tree : TreeV1) : list (string * CfnCrawlerProps) :=
  flat_map (fun child => match snd child with
                         | CfnCrawlerV1 p => [(fst child, p)]
                         | _ => []
                         end) tree.


(** The event id of the earlier enum in the later one. *)
Definition laterEventId (e : RdsEventId) : Stack.RdsEventId :=
  match e with
  | DB_AUTOMATED_AURORA_SNAPSHOT_CREATED =>
      Stack.DB_AUTOMATED_AURORA_SNAPSHOT_CREATED
  | DB_AUTOMATED_SNAPSHOT_CREATED => Stack.DB_AUTOMATED_SNAPSHOT_CREATED
  end.



End StackV1.

Import JS CDK Stack Synth.

(** ** Event ids *)

Lemma RdsEventId_value_inj (a b : RdsEventId) :
  RdsEventId_value a = RdsEventId_value b -> a = b.
Proof. destruct a, b; simpl; intros H; try reflexivity; discriminate H. Qed.

Lemma eventId_eq_spec (a b : RdsEventId) : eventId_eq a b = true <-> a = b.
Proof.
  unfold eventId_eq. rewrite String.eqb_eq. split.
  - apply RdsEventId_value_inj.
  - intros ->. reflexivity.
Qed.

Lemma Array_find_some {A : Type} (p : A -> bool) (arr : list A) :
  truthy (Array_find p arr) = true <-> exists x, In x arr /\ p x = true.
Proof.
  induction arr as [|x rest IH]; simpl.
  - split; [discriminate | intros (y & [] & _)].
  - destruct (p x) eqn:Hx; simpl.
    + split; [intros _; exists x; auto | reflexivity].
    + rewrite IH. split.
      * intros (y & Hy & Hp). exists y. auto.
      * intros (y & [<- | Hy] & Hp); [congruence | exists y; auto].
Qed.

Lemma hasEvent_spec (id : RdsEventId) (events : list RdsSnapshot) :
  hasEvent id events = true <-> contains id events.
Proof.
  unfold hasEvent, contains. rewrite Array_find_some.
  split; intros (e & He & H); exists e; split; auto;
    apply eventId_eq_spec; exact H.
Qed.

Lemma hasEvent_false (id : RdsEventId) (events : list RdsSnapshot) :
  hasEvent id events = false <-> ~ contains id events.
Proof.
  rewrite <- hasEvent_spec. destruct (hasEvent id events); split; intros H.
  - discriminate H.
  - exfalso. apply H. reflexivity.
  - intros H'. discriminate H'.
  - reflexivity.
Qed.

(** ** Running the constructor *)

#[local] Arguments serialize : simpl never.
#[local] Arguments String_replace_outside : simpl never.
#[local] Arguments String.append : simpl never.

(** The two membership tests are the only places where the constructor
    depends on the rule set for its control flow; after a case split on
    them, the run computes. *)
Ltac run_constructor props :=
  unfold synth, RdsSnapshotExportPipelineStack;
  fold (hasEvent DB_AUTOMATED_AURORA_SNAPSHOT_CREATED (rdsEvents props));
  fold (hasEvent DB_BACKUP_SNAPSHOT_FINISHED_COPY (rdsEvents props));
  destruct (hasEvent DB_AUTOMATED_AURORA_SNAPSHOT_CREATED (rdsEvents props))
    eqn:Haurora;
  destruct (hasEvent DB_BACKUP_SNAPSHOT_FINISHED_COPY (rdsEvents props))
    eqn:Hcopy;
  cbn.

(** No rule set makes the constructor throw: the ids it uses are pairwise
    distinct on every path. *)
Lemma synth_succeeds (props : RdsSnapshotExportPipelineStackProps) :
  exists tree, synth props = inr (tt, tree).
Proof. run_constructor props; eexists; reflexivity. Qed.

(** What the resolver part of the constructor leaves in the stack. *)
Lemma synth_subscriptions (props : RdsSnapshotExportPipelineStackProps) :
  exists tree,
    synth props = inr (tt, tree)
    /\ subscriptions tree =
         ("RdsSnapshotEventNotification",
          if hasEvent DB_AUTOMATED_AURORA_SNAPSHOT_CREATED (rdsEvents props)
          then clusterBackupSpec else snapshotCreationSpec)
         :: (if hasEvent DB_BACKUP_SNAPSHOT_FINISHED_COPY (rdsEvents props)
             then [("RdsBackupCopyEventNotification", copyNotificationSpec)]
             else []).
Proof.
  run_constructor props; eexists; (split; [reflexivity|]); reflexivity.
Qed.

(** The constructor is a function: a run has one result. *)
Lemma synth_functional (props : RdsSnapshotExportPipelineStackProps)
  (t1 t2 : ConstructTree) :
  synth props = inr (tt, t1) -> synth props = inr (tt, t2) -> t1 = t2.
Proof. intros H1 H2. rewrite H1 in H2. injection H2 as ->. reflexivity. Qed.

(** ** The Event Subscription Resolver *)

(** C1, as the specification has it, fails: on the empty rule set the
    constructor still emits the snapshot-creation SubscriptionSpec, so the
    emitted list is not empty. *)
Lemma resolver_empty_rule_set_not_inert :
  rdsEvents inert_props = []
  /\ (exists tree,
        synth inert_props = inr (tt, tree)
        /\ subscriptions tree =
             [("RdsSnapshotEventNotification", snapshotCreationSpec)])
  /\ ~ (exists tree,
          synth inert_props = inr (tt, tree) /\ subscriptions tree = []).
Proof.
  split; [reflexivity|]. split.
  - eexists. split; reflexivity.
  - intros (tree & Hrun & Hnone).
    injection Hrun as <-. discriminate Hnone.
Qed.

(** C1 (amended): a rule set with neither the Aurora-cluster-automated nor
    the backup-finished-copy condition (the empty rule set among them) makes
    the resolver emit exactly one SubscriptionSpec, [db-snapshot] with
    category [creation], and the constructor does not throw. *)
Theorem resolver_default_subscription
  (props : RdsSnapshotExportPipelineStackProps) :
  ~ contains DB_AUTOMATED_AURORA_SNAPSHOT_CREATED (rdsEvents props) ->
  ~ contains DB_BACKUP_SNAPSHOT_FINISHED_COPY (rdsEvents props) ->
  exists tree,
    synth props = inr (tt, tree)
    /\ subscriptions tree =
         [("RdsSnapshotEventNotification", snapshotCreationSpec)].
Proof.
  intros Haurora Hcopy.
  apply hasEvent_false in Haurora. apply hasEvent_false in Hcopy.
  destruct (synth_subscriptions props) as (tree & Hrun & Hsubs).
  exists tree. split; [exact Hrun|].
  rewrite Hsubs, Haurora, Hcopy. reflexivity.
Qed.

Lemma resolver_default_subscription_witness :
  exists tree,
    synth inert_props = inr (tt, tree)
    /\ subscriptions tree =
         [("RdsSnapshotEventNotification", snapshotCreationSpec)].
Proof.
  apply (resolver_default_subscription inert_props);
    intros (e & Hin & _); exact Hin.
Defined.

(** C2, as the specification has it, fails on the deployment the repository
    ships (bin/cdk.ts): it gets two SubscriptionSpecs of source type
    [db-snapshot]. *)
Lemma shipped_deployment_repeats_source_type :
  exists tree,
    synth app_props = inr (tt, tree)
    /\ sourceTypes (subscriptions tree) = ["db-snapshot"; "db-snapshot"]
    /\ ~ NoDup (sourceTypes (subscriptions tree)).
Proof.
  eexists. split; [reflexivity|]. split; [reflexivity|].
  intros Hnodup. inversion Hnodup as [|x l Hnotin _]; subst.
  apply Hnotin. left. reflexivity.
Qed.

(** C2 (amended): the emitted SubscriptionSpecs never repeat a logical id,
    nor a pair of source type and event categories; at most one of them has
    source type [db-cluster-snapshot] and at most two have [db-snapshot],
    and there is no other source type. *)
Theorem resolver_subscriptions_distinct
  (props : RdsSnapshotExportPipelineStackProps) :
  exists tree,
    synth props = inr (tt, tree)
    /\ NoDup (map fst (subscriptions tree))
    /\ NoDup (map (fun s => (sourceType (snd s), eventCategories (snd s)))
                (subscriptions tree))
    /\ length (withSourceType "db-cluster-snapshot" (subscriptions tree)) <= 1
    /\ length (withSourceType "db-snapshot" (subscriptions tree)) <= 2
    /\ incl (sourceTypes (subscriptions tree))
         ["db-cluster-snapshot"; "db-snapshot"].
Proof.
  destruct (synth_subscriptions props) as (tree & Hrun & Hsubs).
  exists tree. split; [exact Hrun|]. rewrite Hsubs.
  destruct (hasEvent DB_AUTOMATED_AURORA_SNAPSHOT_CREATED (rdsEvents props));
    destruct (hasEvent DB_BACKUP_SNAPSHOT_FINISHED_COPY (rdsEvents props));
    cbn; repeat split;
    try (repeat constructor; cbn; intuition discriminate);
    try lia;
    intros st Hst; cbn in Hst |- *; intuition.
Qed.

(** C6: the [db-snapshot]/[notification] SubscriptionSpec is emitted exactly
    when the rule set contains the backup-finished-copy condition; it comes
    in addition to the creation-class SubscriptionSpec, which is there in
    either case, and no other emitted SubscriptionSpec has the
    [notification] category. *)
Theorem resolver_copy_notification
  (props : RdsSnapshotExportPipelineStackProps) :
  exists tree,
    synth props = inr (tt, tree)
    /\ (In ("RdsBackupCopyEventNotification", copyNotificationSpec)
          (subscriptions tree)
        <-> contains DB_BACKUP_SNAPSHOT_FINISHED_COPY (rdsEvents props))
    /\ (forall s, In s (subscriptions tree) ->
          In "notification" (eventCategories (snd s)) ->
          s = ("RdsBackupCopyEventNotification", copyNotificationSpec))
    /\ (exists first,
          hd_error (subscriptions tree) = Some first
          /\ first <> ("RdsBackupCopyEventNotification", copyNotificationSpec)
          /\ (snd first = clusterBackupSpec
              \/ snd first = snapshotCreationSpec)).
Proof.
  destruct (synth_subscriptions props) as (tree & Hrun & Hsubs).
  exists tree. split; [exact Hrun|]. rewrite Hsubs.
  rewrite <- hasEvent_spec.
  destruct (hasEvent DB_AUTOMATED_AURORA_SNAPSHOT_CREATED (rdsEvents props));
    destruct (hasEvent DB_BACKUP_SNAPSHOT_FINISHED_COPY (rdsEvents props));
    cbn; (split; [|split]).
  all: try (split; [reflexivity | intros _; right; left; reflexivity]).
  all: try (split; [intros [H|[]]; discriminate H | discriminate]).
  all: try (intros s [<-|[<-|[]]] Hcat; cbn in Hcat;
            [intuition discriminate | reflexivity]).
  all: try (intros s [<-|[]] Hcat; cbn in Hcat; intuition discriminate).
  all: eexists; split; [reflexivity|]; split; [discriminate|]; auto.
Qed.

(** C7: when the rule set contains the Aurora-cluster-automated condition,
    the resolver emits the [db-cluster-snapshot]/[backup] SubscriptionSpec
    and no [db-snapshot]/[creation] one. *)
Theorem resolver_aurora_cluster
  (props : RdsSnapshotExportPipelineStackProps) :
  contains DB_AUTOMATED_AURORA_SNAPSHOT_CREATED (rdsEvents props) ->
  exists tree,
    synth props = inr (tt, tree)
    /\ In ("RdsSnapshotEventNotification", clusterBackupSpec)
         (subscriptions tree)
    /\ (forall s, In s (subscriptions tree) ->
          ~ (sourceType (snd s) = "db-snapshot"
             /\ eventCategories (snd s) = ["creation"])).
Proof.
  intros Haurora. apply hasEvent_spec in Haurora.
  destruct (synth_subscriptions props) as (tree & Hrun & Hsubs).
  exists tree. split; [exact Hrun|]. rewrite Hsubs, Haurora.
  split; [left; reflexivity|].
  intros s Hs [Hsource Hcat].
  destruct Hs as [<- | Hs]; [discriminate Hsource|].
  destruct (hasEvent DB_BACKUP_SNAPSHOT_FINISHED_COPY (rdsEvents props));
    [destruct Hs as [<- | []]; discriminate Hcat | destruct Hs].
Qed.

Lemma resolver_aurora_cluster_witness :
  exists tree,
    synth aurora_props = inr (tt, tree)
    /\ In ("RdsSnapshotEventNotification", clusterBackupSpec)
         (subscriptions tree)
    /\ (forall s, In s (subscriptions tree) ->
          ~ (sourceType (snd s) = "db-snapshot"
             /\ eventCategories (snd s) = ["creation"])).
Proof.
  apply (resolver_aurora_cluster aurora_props).
  eexists. split; [left; reflexivity | reflexivity].
Defined.

(** ** Serializing the rule set for the function *)

(** [join] on an array of strings is the library's [String.concat]. *)
Lemma Array_join_strings (sep : string) (l : list string) :
  Array_join (map JsStr l) (Some sep) = String.concat sep l.
Proof.
  unfold Array_join. induction l as [|x [|y rest] IH]; try reflexivity.
  change (join_with join_elem sep (map JsStr (x :: y :: rest)))
    with (x ++ sep ++ join_with join_elem sep (map JsStr (y :: rest))).
  rewrite IH. reflexivity.
Qed.

(** The wrapper array has one element, an array, and [join] converts it
    with [ToString], which joins with a comma. *)
Lemma join_wrapped (elems : list JsVal) :
  Array_join (new_Array [JsArr elems]) None = Array_join elems (Some ",").
Proof. reflexivity. Qed.

(** The wrapper is not neutral for every argument: around a number it
    yields that many holes. *)
Example join_wrapped_number :
  Array_join (new_Array [JsNum 3]) None = ",,"
  /\ Array_join [JsNum 3] (Some ",") = "3".
Proof. split; reflexivity. Qed.

Lemma serialize_concat (f : RdsSnapshot -> string)
  (events : list RdsSnapshot) :
  serialize f events = String.concat "," (map f events).
Proof.
  unfold serialize, Array_map. rewrite join_wrapped.
  rewrite <- (map_map f JsStr). apply Array_join_strings.
Qed.

(** C10: the expression of the source, [new Array(list.map(f)).join()],
    gives the string of [list.map(f).join(",")] for every rule set and every
    callback, and so do the three entries of the function's environment. *)
Theorem serialize_refines_plain_join
  (props : RdsSnapshotExportPipelineStackProps) :
  (forall f events, serialize f events = serialize_plain f events)
  /\ exists tree fn,
       synth props = inr (tt, tree)
       /\ functionOf "LambdaFunction" tree = Some fn
       /\ lookup "RDS_EVENT_IDS" (environment fn)
          = Some (Lit (serialize_plain eventIdOf (rdsEvents props)))
       /\ lookup "RDS_SNAPSHOT_TYPES" (environment fn)
          = Some (Lit (serialize_plain snapshotTypeOf (rdsEvents props)))
       /\ lookup "DB_SNAPSHOT_TYPES" (environment fn)
          = Some (Lit (serialize_plain exportModeOf (rdsEvents props))).
Proof.
  assert (Hplain : forall f events,
             serialize f events = serialize_plain f events).
  { intros f events. unfold serialize, serialize_plain.
    apply join_wrapped. }
  split; [exact Hplain|].
  rewrite <- !Hplain.
  run_constructor props; do 2 eexists; (split; [reflexivity|]);
    repeat split.
Qed.

(** *** Reading the lists back *)

(** The empty rule set serializes to the empty string. *)
Example serialize_nil (f : RdsSnapshot -> string) :
  serialize f [] = EmptyString.
Proof. reflexivity. Qed.

Lemma split_on_free (sep : ascii) (w : string) :
  free_of sep w = true -> split_on sep w = [w].
Proof.
  induction w as [|c w IH]; simpl; [reflexivity|].
  intros H. apply andb_true_iff in H as [Hc Hw].
  apply negb_true_iff in Hc. rewrite Hc, (IH Hw). reflexivity.
Qed.

Lemma split_on_app (sep : ascii) (w s : string) :
  free_of sep w = true ->
  split_on sep (w ++ String sep s) = w :: split_on sep s.
Proof.
  induction w as [|c w IH]; simpl.
  - intros _. rewrite Ascii.eqb_refl. reflexivity.
  - intros H. apply andb_true_iff in H as [Hc Hw].
    apply negb_true_iff in Hc. rewrite Hc, (IH Hw). reflexivity.
Qed.

Lemma split_on_concat (sep : ascii) (x : string) (rest : list string) :
  Forall (fun w => free_of sep w = true) (x :: rest) ->
  split_on sep (String.concat (String sep EmptyString) (x :: rest))
  = x :: rest.
Proof.
  revert x. induction rest as [|y rest IH]; intros x Hfree.
  - apply split_on_free. inversion Hfree; assumption.
  - inversion Hfree as [|? ? Hx Hrest]; subst.
    change (String.concat (String sep EmptyString) (x :: y :: rest))
      with (x ++ String sep
              (String.concat (String sep EmptyString) (y :: rest))).
    rewrite (split_on_app _ _ _ Hx), (IH y Hrest). reflexivity.
Qed.

(** On lists of non-empty, comma-free fields, [fields] undoes the
    comma-join: the joined string determines the list. *)
Lemma fields_concat (l : list string) :
  Forall (fun w => free_of ","%char w = true) l ->
  Forall (fun w => w <> EmptyString) l ->
  fields (String.concat "," l) = l.
Proof.
  destruct l as [|x rest]; [reflexivity|].
  intros Hfree Hne.
  rewrite <- (split_on_concat ","%char x rest Hfree) at 2.
  unfold fields.
  destruct (String.concat "," (x :: rest)) eqn:Hjoined; [|reflexivity].
  exfalso. inversion Hne as [|? ? Hx _]; subst. apply Hx.
  destruct rest; simpl in Hjoined; [exact Hjoined|].
  destruct x; [reflexivity | discriminate Hjoined].
Qed.

Lemma fields_serialize (f : RdsSnapshot -> string)
  (events : list RdsSnapshot) :
  (forall e, free_of ","%char (f e) = true /\ f e <> EmptyString) ->
  fields (serialize f events) = map f events.
Proof.
  intros Hf. rewrite serialize_concat.
  apply fields_concat; apply Forall_forall; intros w Hw;
    apply in_map_iff in Hw as (e & <- & _); apply Hf.
Qed.

Lemma eventIdOf_field (e : RdsSnapshot) :
  free_of ","%char (eventIdOf e) = true /\ eventIdOf e <> EmptyString.
Proof. destruct e as [[] ?]; split; (reflexivity || discriminate). Qed.

Lemma snapshotTypeOf_field (e : RdsSnapshot) :
  free_of ","%char (snapshotTypeOf e) = true
  /\ snapshotTypeOf e <> EmptyString.
Proof. destruct e as [? []]; split; (reflexivity || discriminate). Qed.

Lemma exportModeOf_field (e : RdsSnapshot) :
  free_of ","%char (exportModeOf e) = true /\ exportModeOf e <> EmptyString.
Proof. destruct e as [[] ?]; split; (reflexivity || discriminate). Qed.

(** C3: the three lists serialized into the function's environment,
    [RDS_EVENT_IDS], [RDS_SNAPSHOT_TYPES] and [DB_SNAPSHOT_TYPES], each have
    as many fields as the rule set has conditions, and the i-th field of each
    comes from the i-th condition. *)
Theorem environment_lists_aligned
  (props : RdsSnapshotExportPipelineStackProps) :
  exists tree fn ids types modes,
    synth props = inr (tt, tree)
    /\ functionOf "LambdaFunction" tree = Some fn
    /\ lookup "RDS_EVENT_IDS" (environment fn) = Some (Lit ids)
    /\ lookup "RDS_SNAPSHOT_TYPES" (environment fn) = Some (Lit types)
    /\ lookup "DB_SNAPSHOT_TYPES" (environment fn) = Some (Lit modes)
    /\ length (fields ids) = length (rdsEvents props)
    /\ length (fields types) = length (rdsEvents props)
    /\ length (fields modes) = length (rdsEvents props)
    /\ (forall i e, nth_error (rdsEvents props) i = Some e ->
          nth_error (fields ids) i = Some (RdsEventId_value (rdsEventId e))
          /\ nth_error (fields types) i
             = Some (RdsSnapshotType_value (rdsSnapshotType e))
          /\ nth_error (fields modes) i = Some (exportModeOf e)).
Proof.
  run_constructor props; do 2 eexists;
    exists (serialize eventIdOf (rdsEvents props)),
      (serialize snapshotTypeOf (rdsEvents props)),
      (serialize exportModeOf (rdsEvents props)).
  all: do 5 (split; [reflexivity|]).
  all: rewrite (fields_serialize _ _ eventIdOf_field),
         (fields_serialize _ _ snapshotTypeOf_field),
         (fields_serialize _ _ exportModeOf_field), !length_map.
  all: do 3 (split; [reflexivity|]).
  all: intros i e Hi; split; [|split];
    [ apply (map_nth_error eventIdOf)
    | apply (map_nth_error snapshotTypeOf)
    | apply (map_nth_error exportModeOf) ]; exact Hi.
Qed.

(** C8: the export mode of a condition is [cluster-snapshot] exactly when
    its event id is RDS-EVENT-0169, [snapshot] exactly when it is any other,
    and conditions with the same event id have the same export mode whatever
    their classification. *)
Theorem export_mode_by_event_id (e : RdsSnapshot) :
  RdsEventId_value DB_AUTOMATED_AURORA_SNAPSHOT_CREATED = "RDS-EVENT-0169"
  /\ (exportModeOf e = "cluster-snapshot"
      <-> RdsEventId_value (rdsEventId e) = "RDS-EVENT-0169")
  /\ (exportModeOf e = "snapshot"
      <-> RdsEventId_value (rdsEventId e) <> "RDS-EVENT-0169")
  /\ (forall e', rdsEventId e' = rdsEventId e ->
        exportModeOf e' = exportModeOf e).
Proof.
  split; [reflexivity|]. repeat split.
  - destruct e as [[] ?]; cbn; intros H; (reflexivity || discriminate H).
  - destruct e as [[] ?]; cbn; intros H; (reflexivity || discriminate H).
  - destruct e as [[] ?]; cbn; intros H; (discriminate || discriminate H).
  - destruct e as [[] ?]; cbn; intros H;
      (reflexivity || (exfalso; apply H; reflexivity)).
  - intros e' H. unfold exportModeOf. rewrite H. reflexivity.
Qed.

Lemma export_mode_by_event_id_witness :
  exportModeOf {| rdsEventId := DB_AUTOMATED_AURORA_SNAPSHOT_CREATED;
                  rdsSnapshotType := DB_MANUAL_SNAPSHOT |}
  = exportModeOf {| rdsEventId := DB_AUTOMATED_AURORA_SNAPSHOT_CREATED;
                    rdsSnapshotType := DB_AUTOMATED_SNAPSHOT |}.
Proof.
  apply (export_mode_by_event_id
           {| rdsEventId := DB_AUTOMATED_AURORA_SNAPSHOT_CREATED;
              rdsSnapshotType := DB_AUTOMATED_SNAPSHOT |}).
  reflexivity.
Defined.

(** ** The catalog database name *)

Section ReplaceOutside.
Context {C : Type} (keep : C -> bool) (by_ : C).
Hypothesis by_kept : keep by_ = true.

(** Replacing twice is replacing once, as soon as the replacement itself
    is in the class. *)
Lemma replace_outside_idempotent (s : list C) :
  replace_outside keep by_ (replace_outside keep by_ s)
  = replace_outside keep by_ s.
Proof using by_kept.
  unfold replace_outside. rewrite map_map. apply map_ext.
  intros c. destruct (keep c) eqn:Hc; [rewrite Hc | rewrite by_kept];
    reflexivity.
Qed.

End ReplaceOutside.

Lemma normalize_chars (s : string) :
  list_ascii_of_string (normalize s)
  = map (fun c => if word_char c then c else "_"%char)
      (list_ascii_of_string s).
Proof.
  unfold normalize, String_replace_outside.
  apply list_ascii_of_string_of_list_ascii.
Qed.

Lemma normalize_idempotent (s : string) : normalize (normalize s) = normalize s.
Proof.
  unfold normalize, String_replace_outside.
  rewrite list_ascii_of_string_of_list_ascii.
  rewrite replace_outside_idempotent; reflexivity.
Qed.

(** The same on UTF-16 code units, where a name may hold any character. *)
Lemma normalize_utf16_idempotent (s : list N) :
  normalize_utf16 (normalize_utf16 s) = normalize_utf16 s.
Proof. apply replace_outside_idempotent. reflexivity. Qed.

(** C9: the crawler's database name is the database name with every
    character outside [A-Za-z0-9_] replaced by an underscore, position by
    position; it depends on the database name alone, normalizing twice is
    normalizing once, and the two examples of the specification hold. *)
Theorem catalog_database_name_normalized
  (props : RdsSnapshotExportPipelineStackProps) :
  (exists tree crawler,
     synth props = inr (tt, tree)
     /\ crawlerOf "SnapshotExportCrawler" tree = Some crawler
     /\ databaseName crawler = normalize (dbName props))
  /\ (forall s, list_ascii_of_string (normalize s)
                = map (fun c => if word_char c then c else "_"%char)
                    (list_ascii_of_string s))
  /\ (forall s t, s = t -> normalize s = normalize t)
  /\ (forall s, normalize (normalize s) = normalize s)
  /\ normalize "db-mysql-main" = "db_mysql_main"
  /\ normalize "db_mysql_main" = "db_mysql_main".
Proof.
  split.
  { run_constructor props; do 2 eexists; repeat split. }
  split; [exact normalize_chars|].
  split; [intros s t ->; reflexivity|].
  split; [exact normalize_idempotent|].
  split; reflexivity.
Qed.

Lemma catalog_database_name_normalized_witness :
  normalize "db-mysql-main" = normalize "db-mysql-main".
Proof.
  exact (proj1 (proj2 (proj2 (catalog_database_name_normalized app_props)))
           "db-mysql-main" "db-mysql-main" eq_refl).
Defined.

(** ** The permission graph *)

(** C4: whatever the deployment, the stack has one key, and the first
    statement of its policy lets the account's root principal do [kms:*] on
    it with no condition. *)
Theorem key_policy_root_grant
  (props : RdsSnapshotExportPipelineStackProps) :
  exists tree key s,
    synth props = inr (tt, tree)
    /\ keys tree = [key]
    /\ keyOf "SnapshotExportEncryptionKey" tree = Some key
    /\ nth_error (Statement (policy key)) 0 = Some s
    /\ unconditionalRootGrant s.
Proof.
  run_constructor props; do 3 eexists; (split; [reflexivity|]);
    (split; [reflexivity|]); (split; [reflexivity|]);
    (split; [reflexivity|]); repeat split.
Qed.

(** C5: in the role the function runs as, a statement names [iam:PassRole];
    every statement that does has as its resource list the ARN of the
    export-task role and nothing else, every other statement names the two
    RDS actions only, and the function's [SNAPSHOT_TASK_ROLE] is that same
    ARN, of the role that the export service assumes. *)
Theorem pass_role_names_export_task_role
  (props : RdsSnapshotExportPipelineStackProps) :
  exists tree fn executor taskRole,
    synth props = inr (tt, tree)
    /\ functionOf "LambdaFunction" tree = Some fn
    /\ roleOf (role fn) tree = Some executor
    /\ roleOf "SnapshotExportTaskRole" tree = Some taskRole
    /\ assumedBy taskRole = "export.rds.amazonaws.com"
    /\ (exists s, In s (roleStatements executor) /\ delegates s)
    /\ (forall s, In s (roleStatements executor) -> delegates s ->
          Effect s = "Allow"
          /\ items (Resource s) = [roleArn "SnapshotExportTaskRole"])
    /\ (forall s, In s (roleStatements executor) -> ~ delegates s ->
          items (Action s) = ["rds:StartExportTask"; "rds:DescribeDBSnapshots"])
    /\ lookup "SNAPSHOT_TASK_ROLE" (environment fn)
       = Some (roleArn "SnapshotExportTaskRole").
Proof.
  run_constructor props; do 4 eexists; (split; [reflexivity|]);
    (split; [reflexivity|]); (split; [reflexivity|]);
    (split; [reflexivity|]); (split; [reflexivity|]).
  all: split; [eexists; split; [right; left; reflexivity | left; reflexivity]|].
  all: split; [|split; [|reflexivity]].
  all: intros s [<- | [<- | []]] Hs; cbn in Hs |- *;
    try reflexivity; try (split; reflexivity);
    exfalso; intuition discriminate.
Qed.

(** * Further properties of the stack *)

Import Graph.

(** Case analysis on membership in a list that is written out. *)
Ltac members H :=
  cbn in H;
  repeat match type of H with
         | _ \/ _ => destruct H as [H | H]
         | False => destruct H
         end.

Lemma hasEvent_ext (id : RdsEventId) (events1 events2 : list RdsSnapshot) :
  (contains id events1 <-> contains id events2) ->
  hasEvent id events1 = hasEvent id events2.
Proof.
  intros Hiff.
  destruct (hasEvent id events2) eqn:H2.
  - apply hasEvent_spec, Hiff, hasEvent_spec, H2.
  - apply hasEvent_false. intros H1. apply Hiff in H1.
    apply hasEvent_false in H2. exact (H2 H1).
Qed.

(** ** The resolver reads two memberships and nothing else *)

(** X1: two rule sets that agree on whether they contain the Aurora
    condition and on whether they contain the copy condition get the same
    SubscriptionSpecs: order, repetitions, classifications and the other
    event ids play no role. *)
Theorem resolver_reads_memberships_only
  (props1 props2 : RdsSnapshotExportPipelineStackProps) :
  (contains DB_AUTOMATED_AURORA_SNAPSHOT_CREATED (rdsEvents props1)
   <-> contains DB_AUTOMATED_AURORA_SNAPSHOT_CREATED (rdsEvents props2)) ->
  (contains DB_BACKUP_SNAPSHOT_FINISHED_COPY (rdsEvents props1)
   <-> contains DB_BACKUP_SNAPSHOT_FINISHED_COPY (rdsEvents props2)) ->
  exists tree1 tree2,
    synth props1 = inr (tt, tree1)
    /\ synth props2 = inr (tt, tree2)
    /\ subscriptions tree1 = subscriptions tree2.
Proof.
  intros Haurora Hcopy.
  apply hasEvent_ext in Haurora. apply hasEvent_ext in Hcopy.
  destruct (synth_subscriptions props1) as (tree1 & Hrun1 & Hsubs1).
  destruct (synth_subscriptions props2) as (tree2 & Hrun2 & Hsubs2).
  exists tree1, tree2. split; [exact Hrun1|]. split; [exact Hrun2|].
  rewrite Hsubs1, Hsubs2, Haurora, Hcopy. reflexivity.
Qed.

Lemma resolver_reads_memberships_only_witness :
  exists tree1 tree2,
    synth app_props = inr (tt, tree1)
    /\ synth (withRuleSet app_props
                [ {| rdsEventId := DB_BACKUP_SNAPSHOT_FINISHED_COPY;
                     rdsSnapshotType := DB_MANUAL_SNAPSHOT |} ])
       = inr (tt, tree2)
    /\ subscriptions tree1 = subscriptions tree2.
Proof.
  apply (resolver_reads_memberships_only app_props
           (withRuleSet app_props
              [ {| rdsEventId := DB_BACKUP_SNAPSHOT_FINISHED_COPY;
                   rdsSnapshotType := DB_MANUAL_SNAPSHOT |} ])).
  - split; intros (e & Hin & Hid); members Hin; subst; discriminate Hid.
  - split; intros _.
    + exists {| rdsEventId := DB_BACKUP_SNAPSHOT_FINISHED_COPY;
                rdsSnapshotType := DB_MANUAL_SNAPSHOT |}.
      split; [left; reflexivity | reflexivity].
    + exists {| rdsEventId := DB_BACKUP_SNAPSHOT_FINISHED_COPY;
                rdsSnapshotType := DB_BACKUP_SNAPSHOT |}.
      split; [right; right; left; reflexivity | reflexivity].
Defined.

(** ** The shape of the stack *)

(** X2: the logical ids of the stack are fixed but for one: they are the
    seven ids up to the creation-class subscription, then the copy
    subscription when the rule set has the copy condition, then the function
    and the crawler; no id occurs twice, and neither name of the deployment
    shows in them. *)
Theorem logical_ids_stable (props : RdsSnapshotExportPipelineStackProps) :
  exists tree,
    synth props = inr (tt, tree)
    /\ map fst tree
       = (idsBeforeCopy
          ++ (if hasEvent DB_BACKUP_SNAPSHOT_FINISHED_COPY (rdsEvents props)
              then ["RdsBackupCopyEventNotification"] else [])
          ++ idsAfterCopy)%list
    /\ NoDup (map fst tree).
Proof.
  run_constructor props; eexists; (split; [reflexivity|]);
    (split; [reflexivity|]); cbn;
    repeat (constructor; [cbn; intuition discriminate|]); constructor.
Qed.

(** X3: construction is in dependency order: every ARN, name or handle
    that a construct of the stack is built from belongs to a construct
    created before it, so no policy, subscription or environment entry
    refers to a construct the stack does not have. *)
Theorem references_created_before_use
  (props : RdsSnapshotExportPipelineStackProps) :
  exists tree,
    synth props = inr (tt, tree)
    /\ createdBeforeUse [] tree = true
    /\ (forall id c r, In (id, c) tree -> In r (constructRefs c) ->
          In r (map fst tree) /\ r <> id).
Proof.
  run_constructor props; eexists; (split; [reflexivity|]);
    (split; [reflexivity|]).
  all: intros id c r Hin Hr; members Hin;
    injection Hin as <- <-; members Hr; subst r;
    (split; [cbn; tauto | discriminate]).
Qed.

(** X4: the rule set reaches the event subscriptions and the function
    only: bucket, roles, key, topic and crawler of a deployment are the same
    whatever rule set it is given. *)
Theorem rule_set_frame (props : RdsSnapshotExportPipelineStackProps)
  (events : list RdsSnapshot) :
  exists tree1 tree2,
    synth props = inr (tt, tree1)
    /\ synth (withRuleSet props events) = inr (tt, tree2)
    /\ staticPart tree1 = staticPart tree2
    /\ length (staticPart tree1) = 7.
Proof.
  destruct props as [bucket db events0].
  unfold synth, RdsSnapshotExportPipelineStack, withRuleSet.
  cbn [rdsEvents dbName s3BucketName].
  fold (hasEvent DB_AUTOMATED_AURORA_SNAPSHOT_CREATED events0).
  fold (hasEvent DB_BACKUP_SNAPSHOT_FINISHED_COPY events0).
  fold (hasEvent DB_AUTOMATED_AURORA_SNAPSHOT_CREATED events).
  fold (hasEvent DB_BACKUP_SNAPSHOT_FINISHED_COPY events).
  destruct (hasEvent DB_AUTOMATED_AURORA_SNAPSHOT_CREATED events0);
    destruct (hasEvent DB_BACKUP_SNAPSHOT_FINISHED_COPY events0);
    destruct (hasEvent DB_AUTOMATED_AURORA_SNAPSHOT_CREATED events);
    destruct (hasEvent DB_BACKUP_SNAPSHOT_FINISHED_COPY events);
    cbn; do 2 eexists; (split; [reflexivity|]); (split; [reflexivity|]);
    split; reflexivity.
Qed.

(** ** The permission graph, statement by statement *)

(** X5: in the inline policies of the three roles, a statement with an S3
    action names the bucket and the objects under it and no other resource;
    the only statement on all resources is the one with the two RDS actions,
    in the function's role; and every statement is an [Allow] without a
    principal. *)
Theorem role_policies_scoped (props : RdsSnapshotExportPipelineStackProps) :
  exists tree,
    synth props = inr (tt, tree)
    /\ map fst (roles tree)
       = [ "SnapshotExportTaskRole";
           "RdsSnapshotExporterLambdaExecutionRole";
           "SnapshotExportsGlueCrawlerRole" ]
    /\ (forall r s, In r (roles tree) -> In s (roleStatements (snd r)) ->
          Effect s = "Allow"
          /\ Principal s = None
          /\ Condition s = None
          /\ (existsb s3Action (items (Action s)) = true ->
                incl (items (Resource s))
                  [ bucketArn "SnapshotExportBucket";
                    Concat (bucketArn "SnapshotExportBucket") (Lit "/*") ])
          /\ (In (Lit "*") (items (Resource s)) ->
                fst r = "RdsSnapshotExporterLambdaExecutionRole"
                /\ items (Action s)
                   = ["rds:StartExportTask"; "rds:DescribeDBSnapshots"])).
Proof.
  run_constructor props; eexists; (split; [reflexivity|]);
    (split; [reflexivity|]).
  all: intros r s Hr Hs; members Hr; subst r; members Hs; subst s; cbn;
    (split; [reflexivity|]); (split; [reflexivity|]); (split; [reflexivity|]);
    split.
  all: try (intros _ res Hres; members Hres; subst res; cbn; tauto).
  all: try (intros Hfalse; discriminate Hfalse).
  all: try (intros Hin; members Hin; discriminate Hin).
  all: intros _; split; reflexivity.
Qed.

(** X6: the key policy has three statements, all on the key.  [kms:*] goes
    to the account root alone; the grant-management actions go to the
    function's role alone and only under the condition
    [kms:GrantIsForAWSResource]; the principals are the root, the function's
    role and the crawler's role, never the export-task role. *)
Theorem key_policy_statements (props : RdsSnapshotExportPipelineStackProps) :
  exists tree key,
    synth props = inr (tt, tree)
    /\ keyOf "SnapshotExportEncryptionKey" tree = Some key
    /\ length (Statement (policy key)) = 3
    /\ (forall s, In s (Statement (policy key)) ->
          Effect s = "Allow"
          /\ items (Resource s) = [Lit "*"]
          /\ incl (principals s)
               [ AccountRootArn;
                 roleArn "RdsSnapshotExporterLambdaExecutionRole";
                 roleArn "SnapshotExportsGlueCrawlerRole" ]
          /\ ~ In (roleArn "SnapshotExportTaskRole") (principals s)
          /\ (In "kms:*" (items (Action s)) ->
                principals s = [AccountRootArn])
          /\ (existsb grantManagement (items (Action s)) = true ->
                Condition s = Some grantIsForAWSResource
                /\ principals s
                   = [roleArn "RdsSnapshotExporterLambdaExecutionRole"])
          /\ (Condition s <> None ->
                forallb grantManagement (items (Action s)) = true)).
Proof.
  run_constructor props; do 2 eexists; (split; [reflexivity|]);
    (split; [reflexivity|]); (split; [reflexivity|]).
  all: intros s Hs; members Hs; subst s; cbn;
    (split; [reflexivity|]); (split; [reflexivity|]).
  all: split; [intros p Hp; members Hp; subst p; cbn; tauto|].
  all: split; [intros Hp; members Hp; discriminate Hp|].
  all: split; [try reflexivity; intros Hin; members Hin; discriminate Hin|].
  all: split;
    [ try (intros Hfalse; discriminate Hfalse); intros _; split; reflexivity
    | try reflexivity; intros Hcond; exfalso; apply Hcond; reflexivity ].
Qed.

(** ** One topic, one bucket *)

(** X7: the stack has one topic; every event subscription it has is
    enabled and publishes to that topic, and the function listens on that
    topic and on nothing else. *)
Theorem single_notification_channel
  (props : RdsSnapshotExportPipelineStackProps) :
  exists tree fn,
    synth props = inr (tt, tree)
    /\ topics tree
       = [("SnapshotEventTopic", {| displayName := "rds-snapshot-creation" |})]
    /\ functionOf "LambdaFunction" tree = Some fn
    /\ events fn = ["SnapshotEventTopic"]
    /\ (forall s, In s (subscriptions tree) ->
          snsTopicArn (snd s) = topicArn "SnapshotEventTopic"
          /\ enabled (snd s) = true).
Proof.
  run_constructor props; do 2 eexists; (split; [reflexivity|]);
    (split; [reflexivity|]); (split; [reflexivity|]);
    (split; [reflexivity|]).
  all: intros s Hs; members Hs; subst s; split; reflexivity.
Qed.

(** X8: the stack has one bucket, named and closed to the public as the
    deployment says; the name the function gets in [SNAPSHOT_BUCKET_NAME] and
    the one target of the crawler are that bucket, the key in
    [SNAPSHOT_TASK_KEY] is the key of the stack, and the function's
    environment has its eight names once each. *)
Theorem environment_refers_to_stack
  (props : RdsSnapshotExportPipelineStackProps) :
  exists tree fn crawler,
    synth props = inr (tt, tree)
    /\ buckets tree
       = [("SnapshotExportBucket",
           {| bucketName := s3BucketName props;
              blockPublicAccess := "BLOCK_ALL" |})]
    /\ functionOf "LambdaFunction" tree = Some fn
    /\ crawlers tree = [("SnapshotExportCrawler", crawler)]
    /\ map fst (environment fn)
       = [ "RDS_EVENT_IDS"; "RDS_SNAPSHOT_TYPES"; "DB_NAME"; "LOG_LEVEL";
           "SNAPSHOT_BUCKET_NAME"; "SNAPSHOT_TASK_ROLE"; "SNAPSHOT_TASK_KEY";
           "DB_SNAPSHOT_TYPES" ]
    /\ NoDup (map fst (environment fn))
    /\ lookup "DB_NAME" (environment fn) = Some (Lit (dbName props))
    /\ lookup "SNAPSHOT_BUCKET_NAME" (environment fn)
       = Some (bucketNameOf "SnapshotExportBucket")
    /\ s3Targets crawler = [bucketNameOf "SnapshotExportBucket"]
    /\ crawlerRole crawler = roleArn "SnapshotExportsGlueCrawlerRole"
    /\ lookup "SNAPSHOT_TASK_KEY" (environment fn)
       = Some (keyArn "SnapshotExportEncryptionKey")
    /\ length (keys tree) = 1.
Proof.
  run_constructor props; do 3 eexists; (split; [reflexivity|]);
    (split; [reflexivity|]); (split; [reflexivity|]);
    (split; [reflexivity|]); (split; [reflexivity|]);
    (split; [|repeat split]).
  all: cbn; repeat (constructor; [cbn; intuition discriminate|]); constructor.
Qed.

(** ** What the function can read back from its environment *)

Lemma RdsSnapshotType_value_inj (a b : RdsSnapshotType) :
  RdsSnapshotType_value a = RdsSnapshotType_value b -> a = b.
Proof. destruct a, b; simpl; intros H; try reflexivity; discriminate H. Qed.

Lemma rule_set_of_columns (events1 events2 : list RdsSnapshot) :
  map eventIdOf events1 = map eventIdOf events2 ->
  map snapshotTypeOf events1 = map snapshotTypeOf events2 ->
  events1 = events2.
Proof.
  revert events2.
  induction events1 as [|[id1 type1] events1 IH];
    intros [|[id2 type2] events2] Hids Htypes;
    try reflexivity; try discriminate Hids.
  injection Hids as Hid Hids. injection Htypes as Htype Htypes.
  apply RdsEventId_value_inj in Hid.
  apply RdsSnapshotType_value_inj in Htype.
  cbn in Hid, Htype. subst. f_equal. apply IH; assumption.
Qed.

(** X9: the two strings [RDS_EVENT_IDS] and [RDS_SNAPSHOT_TYPES] determine
    the rule set: rule sets that serialize to the same two strings are
    equal, conditions, order and repetitions included. *)
Theorem environment_determines_rule_set (events1 events2 : list RdsSnapshot) :
  serialize eventIdOf events1 = serialize eventIdOf events2 ->
  serialize snapshotTypeOf events1 = serialize snapshotTypeOf events2 ->
  events1 = events2.
Proof.
  intros Hids Htypes.
  apply (f_equal fields) in Hids. apply (f_equal fields) in Htypes.
  rewrite !(fields_serialize _ _ eventIdOf_field) in Hids.
  rewrite !(fields_serialize _ _ snapshotTypeOf_field) in Htypes.
  apply rule_set_of_columns; assumption.
Qed.

Lemma environment_determines_rule_set_witness :
  rdsEvents app_props = rdsEvents (withDbName app_props "other").
Proof.
  apply (environment_determines_rule_set (rdsEvents app_props)
           (rdsEvents (withDbName app_props "other"))); reflexivity.
Defined.

Lemma exportModeOf_by_id (e : RdsSnapshot) :
  exportModeOf e = exportModeOfId (eventIdOf e).
Proof. reflexivity. Qed.

Lemma cluster_mode_listed (events : list RdsSnapshot) :
  In "cluster-snapshot" (map exportModeOf events)
  <-> contains DB_AUTOMATED_AURORA_SNAPSHOT_CREATED events.
Proof.
  rewrite in_map_iff. unfold contains.
  split; intros (e & H1 & H2); exists e.
  - split; [exact H2|]. destruct e as [[] ?]; (reflexivity || discriminate H1).
  - split; [|exact H1]. destruct e as [id ?]. cbn in H2. subst id. reflexivity.
Qed.

(** X10: the export modes in [DB_SNAPSHOT_TYPES] are those the function
    would compute itself from the fields of [RDS_EVENT_IDS], and they agree
    with the subscriptions: some export mode is [cluster-snapshot] exactly
    when the stack has the [db-cluster-snapshot] subscription. *)
Theorem export_modes_match_subscription
  (props : RdsSnapshotExportPipelineStackProps) :
  exists tree fn ids modes,
    synth props = inr (tt, tree)
    /\ functionOf "LambdaFunction" tree = Some fn
    /\ lookup "RDS_EVENT_IDS" (environment fn) = Some (Lit ids)
    /\ lookup "DB_SNAPSHOT_TYPES" (environment fn) = Some (Lit modes)
    /\ fields modes = map exportModeOfId (fields ids)
    /\ (In "cluster-snapshot" (fields modes)
        <-> In ("RdsSnapshotEventNotification", clusterBackupSpec)
              (subscriptions tree)).
Proof.
  run_constructor props; do 2 eexists;
    exists (serialize eventIdOf (rdsEvents props)),
      (serialize exportModeOf (rdsEvents props));
    (split; [reflexivity|]); (split; [reflexivity|]);
    (split; [reflexivity|]); (split; [reflexivity|]).
  all: rewrite (fields_serialize _ _ eventIdOf_field),
         (fields_serialize _ _ exportModeOf_field).
  all: split; [rewrite map_map; reflexivity|].
  all: rewrite cluster_mode_listed, <- hasEvent_spec, Haurora.
  all: split; intros H; try discriminate H; try reflexivity;
    try (left; reflexivity).
  all: exfalso; members H; discriminate H.
Qed.

Lemma append_assoc (a b c : string) : (a ++ b) ++ c = a ++ b ++ c.
Proof.
  induction a as [|x a IH]; [reflexivity|].
  change (String x ((a ++ b) ++ c) = String x (a ++ b ++ c)).
  f_equal. exact IH.
Qed.

Lemma concat_app_nonempty (sep : string) (l1 l2 : list string) :
  l1 <> [] -> l2 <> [] ->
  String.concat sep (l1 ++ l2)
  = String.concat sep l1 ++ sep ++ String.concat sep l2.
Proof.
  intros H1 H2. induction l1 as [|x [|y l1] IH]; [contradiction| |].
  - destruct l2; [contradiction | reflexivity].
  - change (String.concat sep ((x :: y :: l1) ++ l2))
      with (x ++ sep ++ String.concat sep ((y :: l1) ++ l2)).
    rewrite IH by discriminate.
    change (String.concat sep (x :: y :: l1))
      with (x ++ sep ++ String.concat sep (y :: l1)).
    rewrite !append_assoc. reflexivity.
Qed.

(** X11: serialization goes along with appending rule sets: the string of
    two non-empty rule sets one after the other is the two strings with a
    comma between. *)
Theorem serialize_app (f : RdsSnapshot -> string)
  (events1 events2 : list RdsSnapshot) :
  events1 <> [] -> events2 <> [] ->
  serialize f (events1 ++ events2)
  = serialize f events1 ++ "," ++ serialize f events2.
Proof.
  intros H1 H2. rewrite !serialize_concat, map_app.
  apply concat_app_nonempty.
  - destruct events1; [contradiction | discriminate].
  - destruct events2; [contradiction | discriminate].
Qed.

Lemma serialize_app_witness :
  serialize eventIdOf (rdsEvents app_props ++ rdsEvents aurora_props)
  = serialize eventIdOf (rdsEvents app_props) ++ ","
    ++ serialize eventIdOf (rdsEvents aurora_props).
Proof.
  apply (serialize_app eventIdOf (rdsEvents app_props)
           (rdsEvents aurora_props)); discriminate.
Defined.

(** ** More on the catalog database name *)

Lemma length_list_ascii (s : string) :
  List.length (list_ascii_of_string s) = String.length s.
Proof. induction s as [|c s IH]; simpl; [reflexivity | f_equal; exact IH]. Qed.

Lemma list_ascii_app (a b : string) :
  list_ascii_of_string (a ++ b)
  = (list_ascii_of_string a ++ list_ascii_of_string b)%list.
Proof.
  induction a as [|c a IH]; [reflexivity|].
  change (c :: list_ascii_of_string (a ++ b)
          = c :: (list_ascii_of_string a ++ list_ascii_of_string b)%list).
  f_equal. exact IH.
Qed.

Lemma list_ascii_inj (a b : string) :
  list_ascii_of_string a = list_ascii_of_string b -> a = b.
Proof.
  intros H. rewrite <- (string_of_list_ascii_of_string a),
    <- (string_of_list_ascii_of_string b), H. reflexivity.
Qed.

Lemma append_inv_tail (a b t : string) : a ++ t = b ++ t -> a = b.
Proof.
  intros H. apply list_ascii_inj.
  apply (f_equal list_ascii_of_string) in H.
  rewrite !list_ascii_app in H. exact (app_inv_tail _ _ _ H).
Qed.

Lemma normalize_word_chars (s : string) :
  forallb word_char (list_ascii_of_string (normalize s)) = true.
Proof.
  rewrite normalize_chars. apply forallb_forall. intros c Hc.
  apply in_map_iff in Hc as (c0 & <- & _).
  destruct (word_char c0) eqn:H0; [exact H0 | reflexivity].
Qed.

Lemma normalize_fixed (s : string) :
  normalize s = s <-> forallb word_char (list_ascii_of_string s) = true.
Proof.
  split.
  - intros H. rewrite <- H at 1. apply normalize_word_chars.
  - intros H. apply list_ascii_inj. rewrite normalize_chars.
    rewrite <- (map_id (list_ascii_of_string s)) at 2.
    apply map_ext_in. intros c Hc.
    rewrite (proj1 (forallb_forall _ _) H c Hc). reflexivity.
Qed.

Lemma normalize_app (a b : string) :
  normalize (a ++ b) = normalize a ++ normalize b.
Proof.
  apply list_ascii_inj.
  rewrite list_ascii_app, !normalize_chars, list_ascii_app, map_app.
  reflexivity.
Qed.

(** X12: the crawler's database name is as long as the database name, has
    characters of [A-Za-z0-9_] only, and is the database name itself exactly
    when that has such characters only. *)
Theorem catalog_database_name_shape
  (props : RdsSnapshotExportPipelineStackProps) :
  exists tree crawler,
    synth props = inr (tt, tree)
    /\ crawlerOf "SnapshotExportCrawler" tree = Some crawler
    /\ String.length (databaseName crawler) = String.length (dbName props)
    /\ forallb word_char (list_ascii_of_string (databaseName crawler)) = true
    /\ (databaseName crawler = dbName props
        <-> forallb word_char (list_ascii_of_string (dbName props)) = true).
Proof.
  run_constructor props; do 2 eexists; (split; [reflexivity|]);
    (split; [reflexivity|]); cbn [databaseName].
  all: fold (normalize (dbName props)).
  all: split;
    [ rewrite <- !length_list_ascii, normalize_chars; apply length_map
    | split; [apply normalize_word_chars | apply normalize_fixed] ].
Qed.

(** X13: normalization goes through concatenation, so the catalog name of
    a database name made of parts is made of the catalog names of the
    parts. *)
Theorem normalize_concatenation (a b : string) :
  normalize (a ++ b) = normalize a ++ normalize b
  /\ String.length (normalize (a ++ b))
     = String.length a + String.length b.
Proof.
  split; [apply normalize_app|].
  rewrite <- !length_list_ascii, normalize_chars, length_map,
    list_ascii_app. apply length_app.
Qed.

(** X14: names collide in the catalog: a deployment whose database name
    has a character outside [A-Za-z0-9_] shares its catalog database name
    with the deployment for another database name, although the two
    functions have different names. *)
Theorem catalog_database_name_collides
  (props : RdsSnapshotExportPipelineStackProps) :
  forallb word_char (list_ascii_of_string (dbName props)) = false ->
  exists other tree1 tree2 crawler1 crawler2 fn1 fn2,
    other <> dbName props
    /\ synth props = inr (tt, tree1)
    /\ synth (withDbName props other) = inr (tt, tree2)
    /\ crawlerOf "SnapshotExportCrawler" tree1 = Some crawler1
    /\ crawlerOf "SnapshotExportCrawler" tree2 = Some crawler2
    /\ functionOf "LambdaFunction" tree1 = Some fn1
    /\ functionOf "LambdaFunction" tree2 = Some fn2
    /\ databaseName crawler1 = databaseName crawler2
    /\ functionName fn1 <> functionName fn2.
Proof.
  intros Hodd.
  assert (Hdiff : normalize (dbName props) <> dbName props).
  { intros Hfix. apply normalize_fixed in Hfix. rewrite Hfix in Hodd.
    discriminate Hodd. }
  exists (normalize (dbName props)).
  destruct props as [bucket db events]. cbn [dbName] in *.
  unfold synth, RdsSnapshotExportPipelineStack, withDbName.
  cbn [rdsEvents dbName s3BucketName].
  fold (hasEvent DB_AUTOMATED_AURORA_SNAPSHOT_CREATED events).
  fold (hasEvent DB_BACKUP_SNAPSHOT_FINISHED_COPY events).
  destruct (hasEvent DB_AUTOMATED_AURORA_SNAPSHOT_CREATED events);
    destruct (hasEvent DB_BACKUP_SNAPSHOT_FINISHED_COPY events);
    cbn; do 6 eexists; (split; [exact Hdiff|]);
    do 6 (split; [reflexivity|]); cbn [databaseName functionName].
  all: fold (normalize db); fold (normalize (normalize db)).
  all: split; [symmetry; apply normalize_idempotent|].
  all: intros Hsame; apply append_inv_tail in Hsame; apply Hdiff;
    symmetry; exact Hsame.
Qed.

Lemma catalog_database_name_collides_witness :
  exists other tree1 tree2 crawler1 crawler2 fn1 fn2,
    other <> dbName app_props
    /\ synth app_props = inr (tt, tree1)
    /\ synth (withDbName app_props other) = inr (tt, tree2)
    /\ crawlerOf "SnapshotExportCrawler" tree1 = Some crawler1
    /\ crawlerOf "SnapshotExportCrawler" tree2 = Some crawler2
    /\ functionOf "LambdaFunction" tree1 = Some fn1
    /\ functionOf "LambdaFunction" tree2 = Some fn2
    /\ databaseName crawler1 = databaseName crawler2
    /\ functionName fn1 <> functionName fn2.
Proof.
  apply (catalog_database_name_collides app_props). reflexivity.
Defined.

(** X15: the names of the function, of the crawler and of the key alias
    tell database names apart: two deployments get the same function name
    (crawler name, alias) exactly when they are for the same database
    name. *)
Theorem physical_names_injective
  (props : RdsSnapshotExportPipelineStackProps) (other : string) :
  exists tree1 tree2 fn1 fn2 crawler1 crawler2 key1 key2,
    synth props = inr (tt, tree1)
    /\ synth (withDbName props other) = inr (tt, tree2)
    /\ functionOf "LambdaFunction" tree1 = Some fn1
    /\ functionOf "LambdaFunction" tree2 = Some fn2
    /\ crawlerOf "SnapshotExportCrawler" tree1 = Some crawler1
    /\ crawlerOf "SnapshotExportCrawler" tree2 = Some crawler2
    /\ keyOf "SnapshotExportEncryptionKey" tree1 = Some key1
    /\ keyOf "SnapshotExportEncryptionKey" tree2 = Some key2
    /\ (functionName fn1 = functionName fn2 <-> dbName props = other)
    /\ (name crawler1 = name crawler2 <-> dbName props = other)
    /\ (alias key1 = alias key2 <-> dbName props = other).
Proof.
  destruct props as [bucket db events]. cbn [dbName].
  unfold synth, RdsSnapshotExportPipelineStack, withDbName.
  cbn [rdsEvents dbName s3BucketName].
  fold (hasEvent DB_AUTOMATED_AURORA_SNAPSHOT_CREATED events).
  fold (hasEvent DB_BACKUP_SNAPSHOT_FINISHED_COPY events).
  destruct (hasEvent DB_AUTOMATED_AURORA_SNAPSHOT_CREATED events);
    destruct (hasEvent DB_BACKUP_SNAPSHOT_FINISHED_COPY events);
    cbn; do 8 eexists; do 8 (split; [reflexivity|]);
    cbn [functionName name alias].
  all: repeat split; intros H;
    try (apply append_inv_tail in H; exact H); rewrite H; reflexivity.
Qed.

(** * The earlier stack *)



Lemma laterEventId_value (e : StackV1.RdsEventId) :
  RdsEventId_value (StackV1.laterEventId e) = StackV1.RdsEventId_value e.
Proof. destruct e; reflexivity. Qed.


(** ** Who runs as what *)

(** X19: each of the three roles is assumed by one service of its own, and
    each consumer is given the role of its service: the function runs as the
    role of [lambda.amazonaws.com], which carries the basic execution
    policy; the crawler runs as the role of [glue.amazonaws.com], which
    carries the Glue service policy; the role of [export.rds.amazonaws.com]
    carries no managed policy. *)
Theorem roles_match_services (props : RdsSnapshotExportPipelineStackProps) :
  exists tree fn crawler executor crawling exporting,
    synth props = inr (tt, tree)
    /\ map (fun r => assumedBy (snd r)) (roles tree)
       = [ "export.rds.amazonaws.com"; "lambda.amazonaws.com";
           "glue.amazonaws.com" ]
    /\ functionOf "LambdaFunction" tree = Some fn
    /\ roleOf (role fn) tree = Some executor
    /\ assumedBy executor = "lambda.amazonaws.com"
    /\ managedPolicies executor = ["service-role/AWSLambdaBasicExecutionRole"]
    /\ crawlerOf "SnapshotExportCrawler" tree = Some crawler
    /\ crawlerRole crawler = roleArn "SnapshotExportsGlueCrawlerRole"
    /\ roleOf "SnapshotExportsGlueCrawlerRole" tree = Some crawling
    /\ assumedBy crawling = "glue.amazonaws.com"
    /\ managedPolicies crawling = ["service-role/AWSGlueServiceRole"]
    /\ roleOf "SnapshotExportTaskRole" tree = Some exporting
    /\ assumedBy exporting = "export.rds.amazonaws.com"
    /\ managedPolicies exporting = []
    /\ (forall r, In r (roles tree) ->
          fst r <> role fn -> assumedBy (snd r) <> "lambda.amazonaws.com").
Proof.
  run_constructor props; do 6 eexists; do 14 (split; [reflexivity|]).
  all: intros r Hr Hne Hsame; members Hr; subst r;
    try discriminate Hsame; apply Hne; reflexivity.
Qed.
